(** * sc4-disable-network-construction-sounds: the start-up patch

    A shallow embedding of [DisableNetworkConstructionSoundsDllDirector.cpp].
    The plugin runs inside the game's process: it reads the game version,
    and for version 641 makes one code byte writable and overwrites it.

    The process is a [World]: the bytes of the address space, the
    protection of its pages, the operating system's answer to a protection
    change, the logger singleton and the files it writes.  Code is written
    in a small state-and-exception monad [M], since the source threads the
    process state through every call and [OverwriteMemory] throws. *)

From Stdlib Require Import ZArith Ascii String List Lia DecimalString.
From stdpp Require Import gmap strings list list_numbers fin_maps.

Local Open Scope Z_scope.

(** ** Integer types of the source *)

(** [uint8_t], [uint16_t] and [uintptr_t] (the plugin is an x86 build)
    as [Z] with the conversion that a call performs on its argument. *)
Definition to_uint8 (z : Z) : Z := z mod 2 ^ 8.
Definition to_uint16 (z : Z) : Z := z mod 2 ^ 16.
Definition to_uintptr (z : Z) : Z := z mod 2 ^ 32.

(** ** Windows page protection *)

Definition PAGE_NOACCESS : Z := 0x01.
Definition PAGE_READONLY : Z := 0x02.
Definition PAGE_READWRITE : Z := 0x04.
Definition PAGE_WRITECOPY : Z := 0x08.
Definition PAGE_EXECUTE : Z := 0x10.
Definition PAGE_EXECUTE_READ : Z := 0x20.
Definition PAGE_EXECUTE_READWRITE : Z := 0x40.
Definition PAGE_EXECUTE_WRITECOPY : Z := 0x80.

Definition ERROR_ACCESS_DENIED : Z := 5.
Definition ERROR_INVALID_PARAMETER : Z := 87.
Definition ERROR_INVALID_ADDRESS : Z := 487.
Definition ERROR_DYNAMIC_CODE_BLOCKED : Z := 1655.

(** The four PAGE_EXECUTE* constants are the ones that allow execution,
    the READWRITE and WRITECOPY ones those that allow a store. *)
Definition is_executable (protect : Z) : bool :=
  negb (Z.land protect 0xF0 =? 0).
Definition is_writable (protect : Z) : bool :=
  negb (Z.land protect 0xCC =? 0).

Definition PAGE_SIZE : Z := 4096.
Definition page_of (address : Z) : Z := address / PAGE_SIZE.

(** The pages that hold a byte of [address, address + size). *)
Definition region_pages (address size : Z) : list Z :=
  seqZ (page_of address) (page_of (address + size - 1) - page_of address + 1).

(** ** The log *)

(** The source names two members of [LogLevel]. *)
Inductive LogLevel := Info | Error.

Inductive LogLine :=
  | Header (text : string)
  | Line (level : LogLevel) (text : string).

(** A [std::filesystem::path] as its components, root first. *)
Definition path := list string.

Definition parent_path (p : path) : path := removelast p.
Definition path_append (p : path) (name : string) : path := p ++ [name].

Record LoggerConfig := mkLoggerConfig {
  logFilePath : list string;
  logLevel : LogLevel;
  appendMode : bool;
}.

(** ** The process *)

(** What the model records of a run besides its state: each entry of
    [OverwriteMemory] and each byte stored. *)
Inductive Event :=
  | OverwriteMemoryCalled (address newValue : Z)
  | ByteStored (address value : Z).

Record World := mkWorld {
  mem : gmap Z Z;                 (* address -> byte *)
  pages : gmap Z Z;               (* committed page -> protection *)
  vp_refuse : option Z;           (* the system refuses protection changes *)
  last_error : Z;                 (* GetLastError() *)
  game_version : Z;               (* what SC4VersionDetection finds *)
  module_path : list string;      (* full path of the plugin DLL *)
  logger : option LoggerConfig;   (* Logger::GetInstance(), None before Init *)
  files : gmap (list string) (list LogLine);
  trace : list Event;
}.

Definition set_mem (f : gmap Z Z -> gmap Z Z) (w : World) : World :=
  mkWorld (f (mem w)) (pages w) (vp_refuse w) (last_error w) (game_version w)
          (module_path w) (logger w) (files w) (trace w).
Definition set_pages (f : gmap Z Z -> gmap Z Z) (w : World) : World :=
  mkWorld (mem w) (f (pages w)) (vp_refuse w) (last_error w) (game_version w)
          (module_path w) (logger w) (files w) (trace w).
Definition set_last_error (e : Z) (w : World) : World :=
  mkWorld (mem w) (pages w) (vp_refuse w) e (game_version w)
          (module_path w) (logger w) (files w) (trace w).
Definition set_logger (l : option LoggerConfig) (w : World) : World :=
  mkWorld (mem w) (pages w) (vp_refuse w) (last_error w) (game_version w)
          (module_path w) l (files w) (trace w).
Definition set_files
    (f : gmap (list string) (list LogLine) -> gmap (list string) (list LogLine))
    (w : World) : World :=
  mkWorld (mem w) (pages w) (vp_refuse w) (last_error w) (game_version w)
          (module_path w) (logger w) (f (files w)) (trace w).
Definition set_trace (f : list Event -> list Event) (w : World) : World :=
  mkWorld (mem w) (pages w) (vp_refuse w) (last_error w) (game_version w)
          (module_path w) (logger w) (files w) (f (trace w)).

(** ** Computations *)

(** The one exception the file can raise: wil's [ResultException], made by
    THROW_IF_WIN32_BOOL_FALSE from [GetLastError()].  It derives from
    [std::exception]. *)
Inductive exception := ResultException (win32_error : Z).

(** A call returns, throws, or stops the process with an access violation
    (a store to a page that is not writable). *)
Inductive outcome (A : Type) :=
  | Ok (a : A)
  | Throw (e : exception)
  | AccessViolation.
Arguments Ok {A} a.
Arguments Throw {A} e.
Arguments AccessViolation {A}.

Definition M (A : Type) : Type := World -> World * outcome A.

Definition ret {A} (a : A) : M A := fun w => (w, Ok a).
Definition throw {A} (e : exception) : M A := fun w => (w, Throw e).
Definition bind {A B} (c : M A) (k : A -> M B) : M B := fun w =>
  match c w with
  | (w', Ok a) => k a w'
  | (w', Throw e) => (w', Throw e)
  | (w', AccessViolation) => (w', AccessViolation)
  end.
(** [try { body } catch (const std::exception& e) { handler }] *)
Definition try_catch {A} (body : M A) (handler : exception -> M A) : M A :=
  fun w =>
    match body w with
    | (w', Throw e) => handler e w'
    | r => r
    end.

Declare Scope prog_scope.
Delimit Scope prog_scope with prog.
Notation "x <- c ;; k" := (bind c (fun x => k))
  (at level 100, c at next level, right associativity) : prog_scope.
Notation "c ;; k" := (bind c (fun _ => k))
  (at level 100, right associativity) : prog_scope.

Definition emit (e : Event) : M unit := fun w =>
  (set_trace (fun t => t ++ [e]) w, Ok tt).

(** ** The platform *)

(** [VirtualProtect(lpAddress, dwSize, flNewProtect, &old)]: on success
    every page of the region gets the new protection and the result is the
    old protection of the first page; on failure nothing changes but the
    last-error value, and the result is [None] (FALSE). *)
Definition VirtualProtect (lpAddress dwSize flNewProtect : Z) : M (option Z) :=
  fun w =>
    match vp_refuse w with
    | Some err => (set_last_error err w, Ok None)
    | None =>
      if dwSize <=? 0 then (set_last_error ERROR_INVALID_PARAMETER w, Ok None)
      else
        let region := region_pages lpAddress dwSize in
        if forallb (fun p => bool_decide (is_Some (pages w !! p))) region then
          (set_pages (fun m => foldr (fun p m' => <[p := flNewProtect]> m') m region) w,
           Ok (pages w !! page_of lpAddress))
        else (set_last_error ERROR_INVALID_ADDRESS w, Ok None)
    end.

Definition GetLastError : M Z := fun w => (w, Ok (last_error w)).

(** wil's THROW_IF_WIN32_BOOL_FALSE, applied to the result of the call. *)
Definition THROW_IF_WIN32_BOOL_FALSE (result : option Z) : M unit :=
  match result with
  | Some _ => ret tt
  | None => (err <- GetLastError ;; throw (ResultException err))%prog
  end.

(** [*((uint8_t* )address) = newValue] *)
Definition store8 (address newValue : Z) : M unit := fun w =>
  match pages w !! page_of address with
  | Some protect =>
    if is_writable protect then
      (set_trace (fun t => t ++ [ByteStored address newValue])
         (set_mem (fun m => <[address := newValue]> m) w), Ok tt)
    else (w, AccessViolation)
  | None => (w, AccessViolation)
  end.

(** [SC4VersionDetection::GetInstance().GetGameVersion()], a [uint16_t].
    The class is not part of the file; its result is an input of the run. *)
Definition GetGameVersion : M Z := fun w => (w, Ok (to_uint16 (game_version w))).

(** ** printf-style formatting *)

Inductive FormatArg :=
  | ArgInt (value : Z)
  | ArgString (value : string).

(** [%d] of an [int]. *)
Definition print_int (z : Z) : string := NilZero.string_of_int (Z.to_int z).

(** The two conversions the source uses, [%d] and [%s]; a conversion
    without a matching argument prints nothing. *)
Fixpoint format (fmt : string) (args : list FormatArg) : string :=
  match fmt with
  | String "%"%char (String "d"%char rest) =>
    match args with
    | ArgInt z :: args' => print_int z +:+ format rest args'
    | _ => format rest (tail args)
    end
  | String "%"%char (String "s"%char rest) =>
    match args with
    | ArgString s :: args' => s +:+ format rest args'
    | _ => format rest (tail args)
    end
  | String c rest => String c (format rest args)
  | EmptyString => EmptyString
  end.

(** ** The logger *)

Module Logger.

(** Modelled from the spec: the class [Logger] ([Logger.h] and its
    implementation are not among the sources).  The spec describes a
    process-wide singleton with one initialisation call taking the path,
    the minimum severity and the append-mode flag, that writes a header
    line and then lines made of a severity level and a message text to a
    human-readable file.  The spec gives no rule by which a line is
    dropped and has the [Info] line of a successful run in the log, so a
    line handed to an initialised logger is written; a logger that was
    never initialised has no file and writes nothing. *)
Definition Init (logFilePath : path) (level : LogLevel) (append : bool) : M unit :=
  fun w =>
    let previous := default [] (files w !! logFilePath) in
    (set_files (fun fs => <[logFilePath := if append then previous else []]> fs)
       (set_logger (Some (mkLoggerConfig logFilePath level append)) w),
     Ok tt).

(** Modelled from the spec: [Logger] is missing; one line is appended to
    the open log file. *)
Definition write (l : LogLine) : M unit := fun w =>
  match logger w with
  | Some cfg =>
    (set_files (fun fs =>
       <[logFilePath cfg := default [] (fs !! logFilePath cfg) ++ [l]]> fs) w,
     Ok tt)
  | None => (w, Ok tt)
  end.

(** Modelled from the spec: [Logger] is missing; the header line. *)
Definition WriteLogFileHeader (text : string) : M unit := write (Header text).

(** Modelled from the spec: [Logger] is missing; a severity level and a
    message text. *)
Definition WriteLine (level : LogLevel) (message : string) : M unit :=
  write (Line level message).

(** Modelled from the spec: [Logger] is missing; the message text is the
    format string with its arguments printed. *)
Definition WriteLineFormatted (level : LogLevel) (fmt : string)
    (args : list FormatArg) : M unit :=
  WriteLine level (format fmt args).

End Logger.

(** ** The source file *)

Definition kDisableNetworkConstructionSoundsDirectorID : Z := 0xC2D4CE53.
Definition PluginLogFileName : string := "SC4DisableNetworkConstructionSounds.log".

Definition GetDllFolderPath : M path := fun w =>
  (w, Ok (parent_path (module_path w))).

Definition OverwriteMemory (address newValue : Z) : M unit :=
  (let address := to_uintptr address in
   let newValue := to_uint8 newValue in
   emit (OverwriteMemoryCalled address newValue) ;;
   (* Allow the executable memory to be written to. *)
   changed <- VirtualProtect address 1 PAGE_EXECUTE_READWRITE ;;
   THROW_IF_WIN32_BOOL_FALSE changed ;;
   (* Patch the memory at the specified address. *)
   store8 address newValue)%prog.

Section Plugin.

(** [e.what()] of a caught exception: wil builds the text from the error
    the exception carries. *)
Variable what : exception -> string.

(** [PLUGIN_VERSION_STR] of [version.h], which is not among the sources. *)
Variable PLUGIN_VERSION_STR : string.

Definition DisableNetworkConstructionAnimationSounds : M unit :=
  (gameVersion <- GetGameVersion ;;
   if gameVersion =? 641 then
     try_catch
       ((* Original instruction: 0x74 (JZ rel8).
           New instruction: 0xEB (JMP rel8). *)
        OverwriteMemory 0x6071FC 0xEB ;;
        Logger.WriteLine Info "Disabled the network construction animation sounds.")
       (fun e =>
          Logger.WriteLineFormatted Error
            "Failed to disable the network construction animation sounds: %s"
            [ArgString (what e)])
   else
     Logger.WriteLineFormatted Error
       "Unable to disable the network construction animation sounds. Requires game version 641, found game version %d."
       [ArgInt gameVersion])%prog.

(** The constructor of [DisableNetworkConstructionSoundsDllDirector]. *)
Definition DisableNetworkConstructionSoundsDllDirector : M unit :=
  (dllFolderPath <- GetDllFolderPath ;;
   let logFilePath := path_append dllFolderPath PluginLogFileName in
   Logger.Init logFilePath Error false ;;
   Logger.WriteLogFileHeader
     ("SC4DisableNetworkConstructionSounds v" +:+ PLUGIN_VERSION_STR))%prog.

Definition GetDirectorID : Z := kDisableNetworkConstructionSoundsDirectorID.

(** [bool OnStart(cIGZCOM* pCOM)]; the body never reads [pCOM]. *)
Definition OnStart : M bool :=
  (DisableNetworkConstructionAnimationSounds ;;
   ret true)%prog.

(** ** The life of the process *)

(** [sDirector]: whether the function-local static of
    [RZGetCOMDllDirector] has been constructed; [started]: whether the
    host has delivered its start notification. *)
Record Process := mkProcess {
  sDirector : bool;
  started : bool;
  world : World;
}.

(** [static DisableNetworkConstructionSoundsDllDirector sDirector;
    return &sDirector;]: the first call constructs the director. *)
Definition RZGetCOMDllDirector (p : Process) : Process :=
  if sDirector p then p
  else mkProcess true (started p)
         (fst (DisableNetworkConstructionSoundsDllDirector (world p))).

(** Modelled from the spec: the host's plugin-loading sequence (the
    framework that calls the director is not among the sources).  The
    host asks for the director, any number of times, and its start-up
    hook is the one invocation point: it is called once, on the director. *)
Inductive host_step : Process -> Process -> Prop :=
  | host_get_director p :
      host_step p (RZGetCOMDllDirector p)
  | host_start p :
      sDirector p = true ->
      started p = false ->
      host_step p (mkProcess true true (fst (OnStart (world p)))).

(** The states a process can be in that began in [w] with nothing
    recorded yet. *)
Inductive reachable (w : World) : Process -> Prop :=
  | reachable_start :
      trace w = [] ->
      reachable w (mkProcess false false w)
  | reachable_step p p' :
      reachable w p -> host_step p p' -> reachable w p'.

End Plugin.

(** How often a byte was stored at [address]. *)
Fixpoint count_stores (address : Z) (t : list Event) : nat :=
  match t with
  | [] => O
  | ByteStored a _ :: t' =>
    if a =? address then S (count_stores address t') else count_stores address t'
  | OverwriteMemoryCalled _ _ :: t' => count_stores address t'
  end.

(** The calls of [OverwriteMemory] and the stores in a trace, in order. *)
Fixpoint calls_of (t : list Event) : list (Z * Z) :=
  match t with
  | [] => []
  | OverwriteMemoryCalled a v :: t' => (a, v) :: calls_of t'
  | ByteStored _ _ :: t' => calls_of t'
  end.

Fixpoint stores_of (t : list Event) : list (Z * Z) :=
  match t with
  | [] => []
  | ByteStored a v :: t' => (a, v) :: stores_of t'
  | OverwriteMemoryCalled _ _ :: t' => stores_of t'
  end.

(** [needle] occurs in [text]. *)
Definition has_substring (needle text : string) : Prop :=
  exists before after, text = before +:+ needle +:+ after.

(** The protection of the page that holds [address], if it is committed. *)
Definition page_protection (w : World) (address : Z) : option Z :=
  pages w !! page_of address.

Definition page_executable (w : World) (address : Z) : bool :=
  match page_protection w address with
  | Some protect => is_executable protect
  | None => false
  end.

(** Whether the protection change of [OverwriteMemory] succeeds in [w]. *)
Definition protection_change_succeeds (address : Z) (w : World) : bool :=
  match snd (VirtualProtect (to_uintptr address) 1 PAGE_EXECUTE_READWRITE w) with
  | Ok (Some _) => true
  | _ => false
  end.

(** The log file of an initialised logger. *)
Definition log_file (w : World) : list LogLine :=
  match logger w with
  | Some cfg => default [] (files w !! logFilePath cfg)
  | None => []
  end.

(** [content] is [previous] with lines added at its end. *)
Definition appended_to (previous content : list LogLine) : Prop :=
  exists added, content = previous ++ added.

(** ** The outcomes of the patch *)

(** The state [OverwriteMemory] leaves when the protection change succeeds
    and when it fails with [err]. *)
Definition patched (address newValue : Z) (w : World) : World :=
  mkWorld (<[address := newValue]> (mem w))
          (<[page_of address := PAGE_EXECUTE_READWRITE]> (pages w))
          (vp_refuse w) (last_error w) (game_version w) (module_path w)
          (logger w) (files w)
          (trace w ++ [OverwriteMemoryCalled address newValue;
                       ByteStored address newValue]).

Definition refused (err address newValue : Z) (w : World) : World :=
  mkWorld (mem w) (pages w) (vp_refuse w) err (game_version w) (module_path w)
          (logger w) (files w)
          (trace w ++ [OverwriteMemoryCalled address newValue]).

(** The error the platform reports when it fails to change the protection
    of the page of [address]. *)
Definition platform_error (address : Z) (w : World) : Z :=
  match vp_refuse w with
  | Some err => err
  | None => ERROR_INVALID_ADDRESS
  end.

(** The message texts of the three runs. *)
Definition mismatch_text (gameVersion : Z) : string :=
  "Unable to disable the network construction animation sounds. Requires game version 641, found game version "
  +:+ print_int gameVersion +:+ ".".

Definition failure_text (what : exception -> string) (e : exception) : string :=
  "Failed to disable the network construction animation sounds: " +:+ what e.

Definition success_text : string :=
  "Disabled the network construction animation sounds.".

(** What holds in every state of the process that began in [w]. *)
Definition patch_invariant (w : World) (p : Process) : Prop :=
  game_version (world p) = game_version w /\
  (started p = false -> stores_of (trace (world p)) = []) /\
  (length (stores_of (trace (world p))) <= 1)%nat /\
  (to_uint16 (game_version w) <> 641 ->
   stores_of (trace (world p)) = [] /\ mem (world p) = mem w).

(** ** Sample processes *)

Definition sample_what (e : exception) : string :=
  match e with
  | ResultException err => "Win32 error " +:+ print_int err
  end.

(** Version 641, the director constructed: the byte at 0x6071FC is the
    JZ opcode, in a page of code. *)
Definition game_641 : World :=
  mkWorld {[ 0x6071FC := 0x74 ]} {[ 0x607 := PAGE_EXECUTE_READ ]} None 0 641
          ["C:"; "SimCity 4"; "Plugins"; "SC4DisableNetworkConstructionSounds.dll"]
          (Some (mkLoggerConfig ["C:"; "SimCity 4"; "Plugins"; PluginLogFileName]
                                Error false))
          {[ ["C:"; "SimCity 4"; "Plugins"; PluginLogFileName] :=
               [Header "SC4DisableNetworkConstructionSounds v1.0.0"] ]}
          [].

Definition game_640 : World :=
  mkWorld (mem game_641) (pages game_641) None 0 640 (module_path game_641)
          (logger game_641) (files game_641) [].

(** Version 641 in a process whose policy refuses protection changes. *)
Definition game_641_refused : World :=
  mkWorld (mem game_641) (pages game_641) (Some ERROR_ACCESS_DENIED) 0 641
          (module_path game_641) (logger game_641) (files game_641) [].

(** A process in which 0x6071FC lies in a data page and whose policy
    refuses to make pages executable. *)
Definition data_page_refused : World :=
  mkWorld {[ 0x6071FC := 0x74 ]} {[ 0x607 := PAGE_READWRITE ]}
          (Some ERROR_DYNAMIC_CODE_BLOCKED) 0 641
          (module_path game_641) (logger game_641) (files game_641) [].

(** A process about to load the plugin, whose plugin folder holds the log
    of an earlier run. *)
Definition second_run : World :=
  mkWorld (mem game_641) (pages game_641) None 0 641 (module_path game_641)
          None
          {[ ["C:"; "SimCity 4"; "Plugins"; PluginLogFileName] :=
               [Header "SC4DisableNetworkConstructionSounds v1.0.0";
                Line Info "Disabled the network construction animation sounds."] ]}
          [].

(** The state of that process after the director was fetched and
    started. *)
Definition started_641 : Process :=
  mkProcess true true
    (fst (OnStart sample_what
       (world (RZGetCOMDllDirector "1.0.1" (mkProcess false false second_run))))).

(** ** A run as a whole *)

(** Whether a run that starts in [w] applies the patch. *)
Definition patch_applies (w : World) : bool :=
  (to_uint16 (game_version w) =? 641) && protection_change_succeeds 0x6071FC w.

(** The state a run leaves before its line is logged, and that line. *)
Definition run_state (w : World) : World :=
  if to_uint16 (game_version w) =? 641 then
    if protection_change_succeeds 0x6071FC w then patched 0x6071FC 0xEB w
    else refused (platform_error 0x6071FC w) 0x6071FC 0xEB w
  else w.

Definition run_line (what : exception -> string) (w : World) : LogLine :=
  if to_uint16 (game_version w) =? 641 then
    if protection_change_succeeds 0x6071FC w then Line Info success_text
    else Line Error (failure_text what (ResultException (platform_error 0x6071FC w)))
  else Line Error (mismatch_text (to_uint16 (game_version w))).

(** The path the constructor gives the logger in a process that began in
    [w]. *)
Definition the_log_file (w : World) : path :=
  path_append (parent_path (module_path w)) PluginLogFileName.

(** The state of a version-641 process after the director was fetched
    and before the start notification. *)
Definition loaded_641 : Process :=
  RZGetCOMDllDirector "1.0.1" (mkProcess false false second_run).

(** ** The platform model on one byte *)

Lemma region_pages_byte address : region_pages address 1 = [page_of address].
Proof.
  unfold region_pages.
  replace (address + 1 - 1) with address by lia.
  replace (page_of address - page_of address + 1) with 1 by lia.
  rewrite seqZ_cons by lia. rewrite seqZ_nil by lia. reflexivity.
Qed.

Lemma VirtualProtect_byte address protect w :
  VirtualProtect address 1 protect w =
  match vp_refuse w with
  | Some err => (set_last_error err w, Ok None)
  | None =>
    match pages w !! page_of address with
    | Some old => (set_pages (fun m => <[page_of address := protect]> m) w, Ok (Some old))
    | None => (set_last_error ERROR_INVALID_ADDRESS w, Ok None)
    end
  end.
Proof.
  unfold VirtualProtect. destruct (vp_refuse w) as [err|]; [reflexivity|].
  change (1 <=? 0) with false. cbv iota. rewrite region_pages_byte. simpl.
  destruct (pages w !! page_of address) as [old|] eqn:Hpage.
  - rewrite bool_decide_eq_true_2 by eauto. reflexivity.
  - rewrite bool_decide_eq_false_2 by (intros [? ?]; discriminate). reflexivity.
Qed.

Lemma OverwriteMemory_succeeds address newValue w :
  protection_change_succeeds address w = true ->
  OverwriteMemory address newValue w =
  (patched (to_uintptr address) (to_uint8 newValue) w, Ok tt).
Proof.
  unfold protection_change_succeeds, OverwriteMemory, bind, emit.
  rewrite !VirtualProtect_byte. cbn -[to_uintptr to_uint8 page_of].
  destruct (vp_refuse w) as [err|] eqn:Hr; [discriminate|].
  destruct (pages w !! page_of (to_uintptr address)) as [old|] eqn:Hp;
    [|discriminate].
  intros _. cbn -[to_uintptr to_uint8 page_of].
  unfold store8. cbn -[to_uintptr to_uint8 page_of].
  rewrite lookup_insert_eq. cbn -[to_uintptr to_uint8 page_of].
  change (is_writable PAGE_EXECUTE_READWRITE) with true. cbv iota.
  unfold patched, set_trace, set_mem, set_pages. simpl.
  rewrite <- app_assoc. reflexivity.
Qed.

Lemma OverwriteMemory_fails address newValue w :
  protection_change_succeeds address w = false ->
  OverwriteMemory address newValue w =
  (refused (platform_error (to_uintptr address) w)
           (to_uintptr address) (to_uint8 newValue) w,
   Throw (ResultException (platform_error (to_uintptr address) w))).
Proof.
  unfold protection_change_succeeds, OverwriteMemory, bind, emit, platform_error.
  rewrite !VirtualProtect_byte. cbn -[to_uintptr to_uint8 page_of].
  destruct (vp_refuse w) as [err|] eqn:Hr.
  - intros _. reflexivity.
  - destruct (pages w !! page_of (to_uintptr address)) as [old|] eqn:Hp;
      [discriminate|].
    intros _. reflexivity.
Qed.

(** ** The logger model *)

Lemma append_empty_r (s : string) : s +:+ "" = s.
Proof. induction s as [|c s IH]; [reflexivity|].
  change (String c s +:+ "") with (String c (s +:+ "")). now rewrite IH. Qed.

(** What a write changes, and what it leaves alone. *)
Lemma write_frame l w :
  let w' := fst (Logger.write l w) in
  mem w' = mem w /\ pages w' = pages w /\ trace w' = trace w /\
  game_version w' = game_version w /\ logger w' = logger w /\
  vp_refuse w' = vp_refuse w /\ snd (Logger.write l w) = Ok tt.
Proof.
  cbv zeta. unfold Logger.write.
  destruct (logger w) as [cfg|] eqn:Hl; cbn; rewrite ?Hl; auto 10.
Qed.

Lemma write_ok l w : Logger.write l w = (fst (Logger.write l w), Ok tt).
Proof. unfold Logger.write. now destruct (logger w). Qed.

Lemma write_log_file l w :
  logger w <> None ->
  log_file (fst (Logger.write l w)) = log_file w ++ [l].
Proof.
  unfold Logger.write, log_file.
  destruct (logger w) as [cfg|] eqn:Hl; [|congruence].
  intros _. cbn. rewrite Hl. now rewrite lookup_insert_eq.
Qed.

(** ** The three runs of [DisableNetworkConstructionAnimationSounds] *)

Lemma Disable_mismatch what w :
  to_uint16 (game_version w) <> 641 ->
  DisableNetworkConstructionAnimationSounds what w =
  Logger.write (Line Error (mismatch_text (to_uint16 (game_version w)))) w.
Proof.
  intros Hv. unfold DisableNetworkConstructionAnimationSounds, bind, GetGameVersion.
  apply Z.eqb_neq in Hv. rewrite Hv. reflexivity.
Qed.

Lemma Disable_success what w :
  to_uint16 (game_version w) = 641 ->
  protection_change_succeeds 0x6071FC w = true ->
  DisableNetworkConstructionAnimationSounds what w =
  Logger.write (Line Info success_text) (patched 0x6071FC 0xEB w).
Proof.
  intros Hv Hp. unfold DisableNetworkConstructionAnimationSounds, bind at 1.
  unfold GetGameVersion. rewrite Hv. change (641 =? 641) with true. cbv iota.
  unfold try_catch, bind.
  rewrite (OverwriteMemory_succeeds _ _ _ Hp).
  unfold Logger.WriteLine. rewrite write_ok. symmetry. apply write_ok.
Qed.

Lemma Disable_failure what w :
  to_uint16 (game_version w) = 641 ->
  protection_change_succeeds 0x6071FC w = false ->
  DisableNetworkConstructionAnimationSounds what w =
  Logger.write
    (Line Error (failure_text what (ResultException (platform_error 0x6071FC w))))
    (refused (platform_error 0x6071FC w) 0x6071FC 0xEB w).
Proof.
  intros Hv Hp. unfold DisableNetworkConstructionAnimationSounds, bind at 1.
  unfold GetGameVersion. rewrite Hv. change (641 =? 641) with true. cbv iota.
  unfold try_catch, bind.
  rewrite (OverwriteMemory_fails _ _ _ Hp).
  unfold Logger.WriteLineFormatted, Logger.WriteLine, failure_text.
  cbn [format]. rewrite append_empty_r. reflexivity.
Qed.

(** ** Trace bookkeeping *)

Lemma calls_of_app t1 t2 : calls_of (t1 ++ t2) = calls_of t1 ++ calls_of t2.
Proof.
  induction t1 as [|[a v|a v] t1 IH]; cbn; [reflexivity| |]; now rewrite IH.
Qed.

Lemma stores_of_app t1 t2 : stores_of (t1 ++ t2) = stores_of t1 ++ stores_of t2.
Proof.
  induction t1 as [|[a v|a v] t1 IH]; cbn; [reflexivity| |]; now rewrite IH.
Qed.

(** ** Version guard *)

(** C1: for every detected version v other than 641 the run makes no call
    of OverwriteMemory and stores no byte (the trace, the memory and the page
    protections are as before), and the log file of the initialised logger
    gains one line of severity Error whose text contains both 641 and the
    decimal of v. *)
Theorem version_mismatch_skips_patch what w :
  to_uint16 (game_version w) <> 641 ->
  logger w <> None ->
  let w' := fst (DisableNetworkConstructionAnimationSounds what w) in
  trace w' = trace w /\ mem w' = mem w /\ pages w' = pages w /\
  log_file w' =
    log_file w ++ [Line Error (mismatch_text (to_uint16 (game_version w)))] /\
  has_substring "641" (mismatch_text (to_uint16 (game_version w))) /\
  has_substring (print_int (to_uint16 (game_version w)))
                (mismatch_text (to_uint16 (game_version w))).
Proof.
  intros Hv Hl w'. subst w'. rewrite (Disable_mismatch what w Hv).
  destruct (write_frame (Line Error (mismatch_text (to_uint16 (game_version w)))) w)
    as (Hm & Hp & Ht & _).
  repeat split; try assumption.
  - now apply write_log_file.
  - exists "Unable to disable the network construction animation sounds. Requires game version ".
    exists (", found game version " +:+ print_int (to_uint16 (game_version w)) +:+ ".").
    reflexivity.
  - exists "Unable to disable the network construction animation sounds. Requires game version 641, found game version ".
    exists ".". reflexivity.
Qed.

Lemma version_mismatch_skips_patch_witness :
  to_uint16 (game_version game_640) <> 641 /\
  logger game_640 <> None /\
  log_file (fst (DisableNetworkConstructionAnimationSounds sample_what game_640)) =
    log_file game_640 ++ [Line Error (mismatch_text 640)].
Proof.
  assert (Hv : to_uint16 (game_version game_640) <> 641) by (vm_compute; lia).
  assert (Hl : logger game_640 <> None) by (vm_compute; discriminate).
  split; [exact Hv|]. split; [exact Hl|].
  exact (proj1 (proj2 (proj2 (proj2
    (version_mismatch_skips_patch sample_what game_640 Hv Hl))))).
Defined.

(** The scenario of the spec: version 640. *)
Example mismatch_640_log :
  log_file (fst (OnStart sample_what game_640)) =
  [Header "SC4DisableNetworkConstructionSounds v1.0.0";
   Line Error "Unable to disable the network construction animation sounds. Requires game version 641, found game version 640."].
Proof. vm_compute. reflexivity. Qed.

(** ** The patch *)

(** C2: when the detected version is 641 and the protection change succeeds,
    the run stores exactly one byte: the memory afterwards is the memory
    before with 0xEB at 0x6071FC, every other address reads as before, and
    the only store recorded is that one. *)
Theorem patch_writes_one_byte what w :
  to_uint16 (game_version w) = 641 ->
  protection_change_succeeds 0x6071FC w = true ->
  let w' := fst (DisableNetworkConstructionAnimationSounds what w) in
  mem w' = <[0x6071FC := 0xEB]> (mem w) /\
  mem w' !! 0x6071FC = Some 0xEB /\
  (forall a, a <> 0x6071FC -> mem w' !! a = mem w !! a) /\
  stores_of (trace w') = stores_of (trace w) ++ [(0x6071FC, 0xEB)].
Proof.
  intros Hv Hp w'. subst w'. rewrite (Disable_success what w Hv Hp).
  destruct (write_frame (Line Info success_text) (patched 0x6071FC 0xEB w))
    as (Hm & _ & Ht & _).
  rewrite Hm, Ht. cbn [patched mem trace].
  split; [reflexivity|]. split; [apply lookup_insert_eq|]. split.
  - intros a Ha. apply lookup_insert_ne. congruence.
  - rewrite stores_of_app. reflexivity.
Qed.

Lemma patch_writes_one_byte_witness :
  to_uint16 (game_version game_641) = 641 /\
  protection_change_succeeds 0x6071FC game_641 = true /\
  mem (fst (DisableNetworkConstructionAnimationSounds sample_what game_641))
  = <[0x6071FC := 0xEB]> (mem game_641).
Proof.
  split; [reflexivity|]. split; [reflexivity|].
  exact (proj1 (patch_writes_one_byte sample_what game_641 eq_refl eq_refl)).
Defined.

(** The scenario of the spec: version 641, the protection change succeeds. *)
Example success_641_log :
  log_file (fst (OnStart sample_what game_641)) =
  [Header "SC4DisableNetworkConstructionSounds v1.0.0";
   Line Info "Disabled the network construction animation sounds."].
Proof. vm_compute. reflexivity. Qed.

(** C3: when the protection change fails, OverwriteMemory stores nothing
    (the memory is as before, at 0x6071FC and everywhere else), and it throws
    an exception that carries the error the platform reported (the
    last-error value); in a run with version 641 the initialised logger then
    gains the line "Failed to disable the network construction animation
    sounds: " followed by the text of that exception, at severity Error. *)
Theorem protection_failure_writes_nothing what w :
  protection_change_succeeds 0x6071FC w = false ->
  let w1 := fst (OverwriteMemory 0x6071FC 0xEB w) in
  snd (OverwriteMemory 0x6071FC 0xEB w) = Throw (ResultException (last_error w1)) /\
  last_error w1 = last_error (fst (VirtualProtect 0x6071FC 1 PAGE_EXECUTE_READWRITE w)) /\
  mem w1 = mem w /\
  stores_of (trace w1) = stores_of (trace w) /\
  (to_uint16 (game_version w) = 641 ->
   logger w <> None ->
   let w' := fst (DisableNetworkConstructionAnimationSounds what w) in
   mem w' = mem w /\
   mem w' !! 0x6071FC = mem w !! 0x6071FC /\
   log_file w' =
     log_file w ++
     [Line Error
        ("Failed to disable the network construction animation sounds: "
         +:+ what (ResultException (last_error w1)))]).
Proof.
  intros Hp w1. subst w1. rewrite (OverwriteMemory_fails _ _ _ Hp).
  cbn [fst snd refused last_error mem trace].
  split; [reflexivity|]. split.
  { unfold protection_change_succeeds in Hp. unfold platform_error.
    rewrite VirtualProtect_byte in *.
    change (to_uintptr 0x6071FC) with 0x6071FC in *.
    destruct (vp_refuse w) as [err|]; [reflexivity|].
    destruct (pages w !! page_of 0x6071FC); [discriminate|reflexivity]. }
  split; [reflexivity|]. split.
  { rewrite stores_of_app. cbn. apply app_nil_r. }
  intros Hv Hl. rewrite (Disable_failure what w Hv Hp).
  match goal with |- context [Logger.write ?l ?w0] =>
    destruct (write_frame l w0) as (Hm & _); pose proof (write_log_file l w0 Hl) as Hf
  end.
  rewrite Hm, Hf. repeat split; reflexivity.
Qed.

Lemma protection_failure_writes_nothing_witness :
  protection_change_succeeds 0x6071FC game_641_refused = false /\
  mem (fst (OverwriteMemory 0x6071FC 0xEB game_641_refused)) = mem game_641_refused.
Proof.
  split; [reflexivity|].
  exact (proj1 (proj2 (proj2
    (protection_failure_writes_nothing sample_what game_641_refused eq_refl)))).
Defined.

(** The scenario of the spec: version 641, the protection change fails. *)
Example failure_641_log :
  log_file (fst (OnStart sample_what game_641_refused)) =
  [Header "SC4DisableNetworkConstructionSounds v1.0.0";
   Line Error "Failed to disable the network construction animation sounds: Win32 error 5"]
  /\ mem (fst (OnStart sample_what game_641_refused)) !! 0x6071FC = Some 0x74.
Proof. vm_compute. split; reflexivity. Qed.

(** C4: for detected version 641 the run calls OverwriteMemory exactly once,
    with address 0x6071FC and byte 0xEB, and the one line the initialised
    logger gains is the success line "Disabled the network construction
    animation sounds." if and only if the protection change succeeds. *)
Theorem version_641_patches_once what w :
  to_uint16 (game_version w) = 641 ->
  logger w <> None ->
  let w' := fst (DisableNetworkConstructionAnimationSounds what w) in
  calls_of (trace w') = calls_of (trace w) ++ [(0x6071FC, 0xEB)] /\
  exists l, log_file w' = log_file w ++ [l] /\
    (l = Line Info "Disabled the network construction animation sounds."
     <-> protection_change_succeeds 0x6071FC w = true).
Proof.
  intros Hv Hl w'. subst w'.
  destruct (protection_change_succeeds 0x6071FC w) eqn:Hp.
  - rewrite (Disable_success what w Hv Hp).
    match goal with |- context [Logger.write ?l ?w0] =>
      destruct (write_frame l w0) as (_ & _ & Ht & _);
      pose proof (write_log_file l w0 Hl) as Hf
    end.
    rewrite Ht, Hf. cbn [patched trace]. split.
    + rewrite calls_of_app. reflexivity.
    + eexists. split; [reflexivity|]. split; reflexivity.
  - rewrite (Disable_failure what w Hv Hp).
    match goal with |- context [Logger.write ?l ?w0] =>
      destruct (write_frame l w0) as (_ & _ & Ht & _);
      pose proof (write_log_file l w0 Hl) as Hf
    end.
    rewrite Ht, Hf. cbn [refused trace]. split.
    + rewrite calls_of_app. reflexivity.
    + eexists. split; [reflexivity|]. split; discriminate.
Qed.

Lemma version_641_patches_once_witness :
  to_uint16 (game_version game_641) = 641 /\
  logger game_641 <> None /\
  calls_of (trace (fst (DisableNetworkConstructionAnimationSounds sample_what game_641)))
  = calls_of (trace game_641) ++ [(0x6071FC, 0xEB)].
Proof.
  assert (Hl : logger game_641 <> None) by (vm_compute; discriminate).
  split; [reflexivity|]. split; [exact Hl|].
  exact (proj1 (version_641_patches_once sample_what game_641 eq_refl Hl)).
Defined.

(** ** Page protection after the patch *)

(** C5, counterexample: execute permission after OverwriteMemory does not
    hold regardless of outcome.  In a process whose page at 0x6071FC
    is not executable and whose protection change is refused,
    OverwriteMemory throws and the page is as non-executable afterwards as
    it was before. *)
Lemma execute_after_failure_counterexample :
  snd (OverwriteMemory 0x6071FC 0xEB data_page_refused)
    = Throw (ResultException ERROR_DYNAMIC_CODE_BLOCKED) /\
  page_protection (fst (OverwriteMemory 0x6071FC 0xEB data_page_refused)) 0x6071FC
    = Some PAGE_READWRITE /\
  page_executable (fst (OverwriteMemory 0x6071FC 0xEB data_page_refused)) 0x6071FC
    = false.
Proof. vm_compute. repeat split; reflexivity. Qed.

Lemma patched_protection address newValue w :
  page_protection (patched address newValue w) address = Some PAGE_EXECUTE_READWRITE.
Proof. unfold page_protection, patched. cbn [pages]. apply lookup_insert_eq. Qed.

(** C5, amended: OverwriteMemory never takes execute permission away.  When
    the protection change succeeds the page of the target address is left
    PAGE_EXECUTE_READWRITE, which is writable and executable; when it fails
    the page protections are exactly those from before, so a page that was
    executable before the call is executable after it, whatever the
    outcome. *)
Theorem OverwriteMemory_keeps_execute address newValue w :
  let a := to_uintptr address in
  let w' := fst (OverwriteMemory address newValue w) in
  (page_executable w a = true -> page_executable w' a = true) /\
  (protection_change_succeeds address w = true ->
   page_protection w' a = Some PAGE_EXECUTE_READWRITE /\
   is_writable PAGE_EXECUTE_READWRITE = true /\
   is_executable PAGE_EXECUTE_READWRITE = true) /\
  (protection_change_succeeds address w = false -> pages w' = pages w).
Proof.
  intros a w'. subst a w'.
  destruct (protection_change_succeeds address w) eqn:Hp.
  - rewrite (OverwriteMemory_succeeds _ newValue _ Hp). cbn [fst].
    split; [|split; [|discriminate]].
    + intros _. unfold page_executable. now rewrite patched_protection.
    + intros _. split; [apply patched_protection|]. split; reflexivity.
  - rewrite (OverwriteMemory_fails _ newValue _ Hp). cbn [fst].
    split; [|split; [discriminate|]].
    + intros He. exact He.
    + intros _. reflexivity.
Qed.

Lemma OverwriteMemory_keeps_execute_witness :
  page_executable game_641_refused 0x6071FC = true /\
  page_executable (fst (OverwriteMemory 0x6071FC 0xEB game_641_refused)) 0x6071FC = true.
Proof.
  split; [reflexivity|].
  exact (proj1 (OverwriteMemory_keeps_execute 0x6071FC 0xEB game_641_refused) eq_refl).
Defined.

(** ** Idempotence *)

Lemma patched_succeeds_again address newValue w :
  protection_change_succeeds address w = true ->
  protection_change_succeeds address
    (patched (to_uintptr address) (to_uint8 newValue) w) = true.
Proof.
  unfold protection_change_succeeds. rewrite !VirtualProtect_byte.
  cbn [patched vp_refuse pages].
  destruct (vp_refuse w); [discriminate|].
  now rewrite lookup_insert_eq.
Qed.

Lemma refused_fails_again err address newValue w :
  protection_change_succeeds address w = false ->
  protection_change_succeeds address
    (refused err (to_uintptr address) (to_uint8 newValue) w) = false.
Proof.
  unfold protection_change_succeeds. rewrite !VirtualProtect_byte.
  cbn [refused vp_refuse pages].
  destruct (vp_refuse w); [reflexivity|].
  destruct (pages w !! page_of (to_uintptr address)); [discriminate|reflexivity].
Qed.

(** C8: calling OverwriteMemory a second time with the same arguments
    leaves the memory (and the page protections) exactly as the first call
    left them; in particular for the arguments 0x6071FC and 0xEB. *)
Theorem OverwriteMemory_idempotent address newValue w :
  let w1 := fst (OverwriteMemory address newValue w) in
  let w2 := fst (OverwriteMemory address newValue w1) in
  mem w2 = mem w1 /\ pages w2 = pages w1.
Proof.
  intros w1 w2. subst w1 w2.
  destruct (protection_change_succeeds address w) eqn:Hp.
  - rewrite (OverwriteMemory_succeeds _ newValue _ Hp). cbn [fst].
    rewrite (OverwriteMemory_succeeds _ newValue _
               (patched_succeeds_again _ newValue _ Hp)).
    cbn [fst patched mem pages]. split; apply insert_insert_eq.
  - rewrite (OverwriteMemory_fails _ newValue _ Hp). cbn [fst].
    rewrite (OverwriteMemory_fails _ newValue _
               (refused_fails_again _ _ newValue _ Hp)).
    cbn [fst refused mem pages]. split; reflexivity.
Qed.

Example patch_twice_641 :
  mem (fst (OverwriteMemory 0x6071FC 0xEB (fst (OverwriteMemory 0x6071FC 0xEB game_641))))
  = {[ 0x6071FC := 0xEB ]}.
Proof. vm_compute. reflexivity. Qed.

(** ** The start-up hook *)

Lemma Disable_returns what w :
  DisableNetworkConstructionAnimationSounds what w =
  (fst (DisableNetworkConstructionAnimationSounds what w), Ok tt).
Proof.
  destruct (Z.eq_dec (to_uint16 (game_version w)) 641) as [Hv|Hv].
  - destruct (protection_change_succeeds 0x6071FC w) eqn:Hp.
    + rewrite (Disable_success what w Hv Hp). apply write_ok.
    + rewrite (Disable_failure what w Hv Hp). apply write_ok.
  - rewrite (Disable_mismatch what w Hv). apply write_ok.
Qed.

Lemma OnStart_eq what w :
  OnStart what w = (fst (DisableNetworkConstructionAnimationSounds what w), Ok true).
Proof. unfold OnStart, bind. rewrite Disable_returns. reflexivity. Qed.

(** C6: nothing propagates out of OnStart.  For every process state the
    outcome of OnStart is neither an exception nor an access violation, and
    when the patch attempt of a version-641 run throws [e], OnStart is the
    handler's log call, made on the state the throw left, followed by a
    normal return. *)
Theorem OnStart_never_throws what w :
  (forall e, snd (OnStart what w) <> Throw e) /\
  snd (OnStart what w) <> AccessViolation /\
  (forall w1 e,
     to_uint16 (game_version w) = 641 ->
     OverwriteMemory 0x6071FC 0xEB w = (w1, Throw e) ->
     OnStart what w =
     (fst (Logger.WriteLineFormatted Error
             "Failed to disable the network construction animation sounds: %s"
             [ArgString (what e)] w1),
      Ok true)).
Proof.
  rewrite OnStart_eq. cbn [snd]. split; [discriminate|]. split; [discriminate|].
  intros w1 e Hv Hthrow. f_equal.
  unfold DisableNetworkConstructionAnimationSounds, bind at 1.
  unfold GetGameVersion. rewrite Hv. change (641 =? 641) with true. cbv iota.
  unfold try_catch. unfold bind at 1. rewrite Hthrow. reflexivity.
Qed.

Lemma OnStart_never_throws_witness :
  to_uint16 (game_version game_641_refused) = 641 /\
  OnStart sample_what game_641_refused =
  (fst (Logger.WriteLineFormatted Error
          "Failed to disable the network construction animation sounds: %s"
          [ArgString (sample_what (ResultException ERROR_ACCESS_DENIED))]
          (fst (OverwriteMemory 0x6071FC 0xEB game_641_refused))),
   Ok true).
Proof.
  split; [reflexivity|].
  exact (proj2 (proj2 (OnStart_never_throws sample_what game_641_refused))
           _ _ eq_refl eq_refl).
Defined.

(** C10: OnStart returns true to the host in every process state, whether
    the patch was applied, skipped for a version mismatch, or failed at the
    protection change. *)
Theorem OnStart_returns_true what w : snd (OnStart what w) = Ok true.
Proof. rewrite OnStart_eq. reflexivity. Qed.

Example OnStart_true_in_each_case :
  snd (OnStart sample_what game_641) = Ok true /\
  snd (OnStart sample_what game_640) = Ok true /\
  snd (OnStart sample_what game_641_refused) = Ok true.
Proof. vm_compute. repeat split; reflexivity. Qed.

(** ** The log file *)

(** C9, counterexample: the log file is not append-style.  The
    constructor passes [false] for the append-mode flag, and of the log an
    earlier run left in the plugin folder nothing is kept: the file holds
    the new header line alone. *)
Lemma log_not_appended_counterexample :
  let logFile := ["C:"; "SimCity 4"; "Plugins"; "SC4DisableNetworkConstructionSounds.log"] in
  let w' := fst (DisableNetworkConstructionSoundsDllDirector "1.0.0" second_run) in
  logger w' = Some (mkLoggerConfig logFile Error false) /\
  files w' !! logFile = Some [Header "SC4DisableNetworkConstructionSounds v1.0.0"] /\
  ~ appended_to (default [] (files second_run !! logFile))
                (default [] (files w' !! logFile)).
Proof.
  cbv zeta. split; [vm_compute; reflexivity|]. split; [vm_compute; reflexivity|].
  intros [added Hadded]. vm_compute in Hadded. discriminate Hadded.
Qed.

Lemma constructor_eq ver w :
  DisableNetworkConstructionSoundsDllDirector ver w =
  (let logFile := path_append (parent_path (module_path w)) PluginLogFileName in
   set_files
     (fun fs => <[logFile := [Header ("SC4DisableNetworkConstructionSounds v" +:+ ver)]]> fs)
     (set_logger (Some (mkLoggerConfig logFile Error false)) w),
   Ok tt).
Proof.
  unfold DisableNetworkConstructionSoundsDllDirector, bind, GetDllFolderPath,
    Logger.Init, Logger.WriteLogFileHeader, Logger.write.
  cbn [fst snd logger set_logger set_files files logFilePath].
  unfold set_files, set_logger. cbn [mem pages vp_refuse last_error game_version
    module_path logger files trace].
  rewrite lookup_insert_eq, insert_insert_eq. reflexivity.
Qed.

(** C9, amended: the constructor initialises the logger on one file, named
    SC4DisableNetworkConstructionSounds.log, in the directory of the plugin
    binary, with the append-mode flag off: whatever the file held before,
    it now begins with (and so far holds only) the header line, which
    contains the plugin name and the version; no other file is touched, and
    a line logged afterwards is added after the header. *)
Theorem log_file_begins_with_header ver w :
  let logFile :=
    path_append (parent_path (module_path w))
                "SC4DisableNetworkConstructionSounds.log" in
  let header := "SC4DisableNetworkConstructionSounds v" +:+ ver in
  let w' := fst (DisableNetworkConstructionSoundsDllDirector ver w) in
  logger w' = Some (mkLoggerConfig logFile Error false) /\
  parent_path logFile = parent_path (module_path w) /\
  files w' !! logFile = Some [Header header] /\
  (forall p : list string, p <> logFile -> files w' !! p = files w !! p) /\
  has_substring "SC4DisableNetworkConstructionSounds" header /\
  has_substring ver header /\
  (forall l, log_file (fst (Logger.write l w')) = [Header header; l]).
Proof.
  cbv zeta. rewrite constructor_eq. cbn [fst].
  set (logFile := path_append (parent_path (module_path w)) PluginLogFileName).
  cbn [logger set_logger set_files files].
  split; [reflexivity|]. split.
  { unfold logFile, path_append, parent_path. apply removelast_last. }
  split; [apply lookup_insert_eq|]. split.
  { intros p Hp. now apply lookup_insert_ne. }
  split; [exists "", (" v" +:+ ver); reflexivity|].
  split; [exists "SC4DisableNetworkConstructionSounds v", ""; now rewrite append_empty_r|].
  intros l. rewrite write_log_file by (cbn; discriminate).
  unfold log_file. cbn [logger set_logger set_files logFilePath files].
  now rewrite lookup_insert_eq.
Qed.

(** A whole first run: the header, then the line of the run. *)
Example second_run_log :
  log_file (fst (OnStart sample_what
              (fst (DisableNetworkConstructionSoundsDllDirector "1.0.1" second_run)))) =
  [Header "SC4DisableNetworkConstructionSounds v1.0.1";
   Line Info "Disabled the network construction animation sounds."].
Proof. vm_compute. reflexivity. Qed.

(** ** The whole life of the process *)

Lemma count_stores_le address t :
  (count_stores address t <= length (stores_of t))%nat.
Proof.
  induction t as [|[a v|a v] t IH]; cbn; [lia|lia|].
  destruct (a =? address); lia.
Qed.

(** The constructor neither stores a byte nor changes the detected
    version. *)
Lemma constructor_frame ver w :
  let w' := fst (DisableNetworkConstructionSoundsDllDirector ver w) in
  trace w' = trace w /\ game_version w' = game_version w /\ mem w' = mem w.
Proof. cbv zeta. rewrite constructor_eq. repeat split. Qed.

(** One start notification stores at most the patch byte, and nothing
    unless the version is 641. *)
Lemma OnStart_stores what w :
  let w' := fst (OnStart what w) in
  game_version w' = game_version w /\
  (stores_of (trace w') = stores_of (trace w) /\ mem w' = mem w \/
   to_uint16 (game_version w) = 641 /\
   stores_of (trace w') = stores_of (trace w) ++ [(0x6071FC, 0xEB)]).
Proof.
  cbv zeta. rewrite OnStart_eq. cbn [fst].
  destruct (Z.eq_dec (to_uint16 (game_version w)) 641) as [Hv|Hv].
  - destruct (protection_change_succeeds 0x6071FC w) eqn:Hp.
    + rewrite (Disable_success what w Hv Hp).
      match goal with |- context [Logger.write ?l ?w0] =>
        destruct (write_frame l w0) as (_ & _ & Ht & Hg & _) end.
      rewrite Ht, Hg. cbn [patched trace game_version].
      split; [reflexivity|]. right. split; [exact Hv|].
      rewrite stores_of_app. reflexivity.
    + rewrite (Disable_failure what w Hv Hp).
      match goal with |- context [Logger.write ?l ?w0] =>
        destruct (write_frame l w0) as (Hm & _ & Ht & Hg & _) end.
      rewrite Ht, Hg, Hm. cbn [refused trace game_version mem].
      split; [reflexivity|]. left. split; [|reflexivity].
      rewrite stores_of_app. cbn. apply app_nil_r.
  - rewrite (Disable_mismatch what w Hv).
    match goal with |- context [Logger.write ?l ?w0] =>
      destruct (write_frame l w0) as (Hm & _ & Ht & Hg & _) end.
    rewrite Ht, Hg, Hm. split; [reflexivity|]. left. split; reflexivity.
Qed.

Lemma patch_invariant_step what ver w p p' :
  patch_invariant w p -> host_step what ver p p' -> patch_invariant w p'.
Proof.
  intros (Hg & Hs & Hlen & Hv) Hstep. destruct Hstep as [p|p Hd Hst].
  - unfold RZGetCOMDllDirector. destruct (sDirector p).
    + repeat split; tauto.
    + destruct (constructor_frame ver (world p)) as (Ht & Hg' & Hm).
      unfold patch_invariant. cbn [world started]. rewrite Ht, Hg', Hm.
      repeat split; tauto.
  - destruct (OnStart_stores what (world p)) as (Hg' & Hcases).
    specialize (Hs Hst).
    unfold patch_invariant. cbn [world started]. rewrite Hg'.
    split; [exact Hg|]. split; [discriminate|].
    destruct Hcases as [(Ht & Hm)|(H641 & Ht)]; rewrite Ht, Hs.
    + split; [cbn; lia|]. intros Hne. split; [reflexivity|].
      rewrite Hm. tauto.
    + split; [cbn; lia|]. intros Hne. exfalso. apply Hne. now rewrite <- Hg.
Qed.

Lemma reachable_invariant what ver w p :
  reachable what ver w p -> patch_invariant w p.
Proof.
  induction 1 as [Ht|p p' Hr IH Hstep].
  - unfold patch_invariant. cbn [world started]. rewrite Ht. cbn.
    repeat split; lia.
  - exact (patch_invariant_step what ver w p p' IH Hstep).
Qed.

(** C7: in every state a process can reach (the host asks for the director
    any number of times, and delivers its start notification once), the byte
    at 0x6071FC has been stored at most once, and when the detected version
    differs from 641 no byte has been stored at all and the memory is the one
    the process began with. *)
Theorem patched_at_most_once what ver w p :
  reachable what ver w p ->
  (count_stores 0x6071FC (trace (world p)) <= 1)%nat /\
  (to_uint16 (game_version w) <> 641 ->
   count_stores 0x6071FC (trace (world p)) = O /\
   stores_of (trace (world p)) = [] /\
   mem (world p) = mem w).
Proof.
  intros Hr. destruct (reachable_invariant what ver w p Hr) as (_ & _ & Hlen & Hv).
  pose proof (count_stores_le 0x6071FC (trace (world p))) as Hle.
  split; [lia|]. intros Hne. destruct (Hv Hne) as (Hnil & Hm).
  rewrite Hnil in Hle. cbn in Hle. repeat split; [lia|exact Hnil|exact Hm].
Qed.

Lemma patched_at_most_once_witness :
  reachable sample_what "1.0.1" second_run started_641 /\
  (count_stores 0x6071FC (trace (world started_641)) <= 1)%nat.
Proof.
  assert (Hr : reachable sample_what "1.0.1" second_run started_641).
  { eapply reachable_step.
    - eapply reachable_step.
      + apply reachable_start. reflexivity.
      + apply host_get_director.
    - apply host_start; reflexivity. }
  split; [exact Hr|].
  exact (proj1 (patched_at_most_once sample_what "1.0.1" second_run started_641 Hr)).
Defined.

Example started_641_trace :
  trace (world started_641) =
  [OverwriteMemoryCalled 0x6071FC 0xEB; ByteStored 0x6071FC 0xEB].
Proof. vm_compute. reflexivity. Qed.


(** ** Further properties of the patch *)

Lemma succeeds_ext address w1 w2 :
  vp_refuse w1 = vp_refuse w2 -> pages w1 = pages w2 ->
  protection_change_succeeds address w1 = protection_change_succeeds address w2.
Proof.
  intros Hr Hp. unfold protection_change_succeeds.
  rewrite !VirtualProtect_byte, Hr, Hp.
  destruct (vp_refuse w2); [reflexivity|].
  now destruct (pages w2 !! page_of (to_uintptr address)).
Qed.

Lemma Disable_run what w :
  DisableNetworkConstructionAnimationSounds what w =
  Logger.write (run_line what w) (run_state w).
Proof.
  unfold run_line, run_state.
  destruct (Z.eq_dec (to_uint16 (game_version w)) 641) as [Hv|Hv].
  - rewrite (proj2 (Z.eqb_eq _ _) Hv).
    destruct (protection_change_succeeds 0x6071FC w) eqn:Hp.
    + apply (Disable_success what w Hv Hp).
    + apply (Disable_failure what w Hv Hp).
  - rewrite (proj2 (Z.eqb_neq _ _) Hv). apply (Disable_mismatch what w Hv).
Qed.

(** X1: OverwriteMemory never stores into a page that is not writable: for
    every address, value and process state it either returns normally,
    which it does exactly when the protection change succeeds, and then the
    byte has been stored in a page that is writable; or it throws, and then
    neither the memory nor any page protection has changed. *)
Theorem OverwriteMemory_returns_or_throws address newValue w :
  let w' := fst (OverwriteMemory address newValue w) in
  let r := snd (OverwriteMemory address newValue w) in
  r <> AccessViolation /\
  (r = Ok tt <-> protection_change_succeeds address w = true) /\
  (r = Ok tt ->
   mem w' !! to_uintptr address = Some (to_uint8 newValue) /\
   (exists protect, page_protection w' (to_uintptr address) = Some protect /\
                    is_writable protect = true)) /\
  ((exists e, r = Throw e) <-> protection_change_succeeds address w = false) /\
  ((exists e, r = Throw e) -> mem w' = mem w /\ pages w' = pages w).
Proof.
  cbv zeta. destruct (protection_change_succeeds address w) eqn:Hp.
  - rewrite (OverwriteMemory_succeeds _ newValue _ Hp). cbn [fst snd].
    split; [discriminate|]. split; [tauto|]. split.
    { intros _. split; [apply lookup_insert_eq|].
      exists PAGE_EXECUTE_READWRITE. split; [apply patched_protection|reflexivity]. }
    split; [split; [intros [e He]; discriminate|discriminate]|].
    intros [e He]. discriminate.
  - rewrite (OverwriteMemory_fails _ newValue _ Hp). cbn [fst snd].
    split; [discriminate|]. split; [split; discriminate|].
    split; [discriminate|]. split; [split; eauto|].
    intros _. split; reflexivity.
Qed.

(** X2: OverwriteMemory touches one byte and one page.  For every address,
    value and process state, every other address reads as before, every
    other page keeps its protection, and the files, the logger, the detected
    version and the module path are unchanged. *)
Theorem OverwriteMemory_footprint address newValue w :
  let w' := fst (OverwriteMemory address newValue w) in
  (forall b, b <> to_uintptr address -> mem w' !! b = mem w !! b) /\
  (forall q, q <> page_of (to_uintptr address) -> pages w' !! q = pages w !! q) /\
  files w' = files w /\ logger w' = logger w /\
  game_version w' = game_version w /\ module_path w' = module_path w.
Proof.
  cbv zeta. destruct (protection_change_succeeds address w) eqn:Hp.
  - rewrite (OverwriteMemory_succeeds _ newValue _ Hp).
    cbn [fst patched mem pages files logger game_version module_path].
    split; [intros b Hb; now apply lookup_insert_ne|].
    split; [intros q Hq; now apply lookup_insert_ne|]. repeat split.
  - rewrite (OverwriteMemory_fails _ newValue _ Hp).
    cbn [fst refused mem pages files logger game_version module_path].
    repeat split.
Qed.

(** ** Further properties of a run *)

(** What the memory and the protections after a run depend on. *)
Lemma run_state_ext w1 w2 :
  mem w1 = mem w2 -> pages w1 = pages w2 ->
  vp_refuse w1 = vp_refuse w2 -> game_version w1 = game_version w2 ->
  mem (run_state w1) = mem (run_state w2) /\
  pages (run_state w1) = pages (run_state w2) /\
  vp_refuse (run_state w1) = vp_refuse (run_state w2) /\
  game_version (run_state w1) = game_version (run_state w2).
Proof.
  intros Hm Hp Hr Hg. unfold run_state.
  rewrite (succeeds_ext 0x6071FC w1 w2 Hr Hp), Hg.
  destruct (to_uint16 (game_version w2) =? 641); [|auto].
  destruct (protection_change_succeeds 0x6071FC w2);
    cbn [patched refused mem pages vp_refuse game_version];
    rewrite ?Hm, ?Hp, ?Hr, ?Hg; auto.
Qed.

Lemma run_state_frame w :
  vp_refuse (run_state w) = vp_refuse w /\
  game_version (run_state w) = game_version w /\
  logger (run_state w) = logger w /\
  files (run_state w) = files w /\
  module_path (run_state w) = module_path w /\
  protection_change_succeeds 0x6071FC (run_state w)
  = protection_change_succeeds 0x6071FC w.
Proof.
  unfold run_state. destruct (to_uint16 (game_version w) =? 641); [|auto 10].
  destruct (protection_change_succeeds 0x6071FC w) eqn:Hp.
  - repeat split. exact (patched_succeeds_again 0x6071FC 0xEB w Hp).
  - repeat split.
    exact (refused_fails_again (platform_error 0x6071FC w) 0x6071FC 0xEB w Hp).
Qed.

(** A second run finds the memory and the protections it would leave. *)
Lemma run_state_again w :
  mem (run_state (run_state w)) = mem (run_state w) /\
  pages (run_state (run_state w)) = pages (run_state w).
Proof.
  destruct (run_state_frame w) as (_ & Hg & _ & _ & _ & Hs).
  remember (run_state w) as w1 eqn:Hw1.
  unfold run_state. rewrite Hg, Hs. subst w1. unfold run_state.
  destruct (to_uint16 (game_version w) =? 641); [|auto].
  destruct (protection_change_succeeds 0x6071FC w);
    cbn [patched refused mem pages]; [|auto].
  split; apply insert_insert_eq.
Qed.

Lemma run_line_ext what w1 w2 :
  game_version w1 = game_version w2 -> vp_refuse w1 = vp_refuse w2 ->
  protection_change_succeeds 0x6071FC w1 = protection_change_succeeds 0x6071FC w2 ->
  run_line what w1 = run_line what w2.
Proof.
  intros Hg Hr Hs. unfold run_line, platform_error. now rewrite Hg, Hr, Hs.
Qed.

(** The state after a run, field by field. *)
Lemma Disable_fields what w :
  let w' := fst (DisableNetworkConstructionAnimationSounds what w) in
  mem w' = mem (run_state w) /\ pages w' = pages (run_state w) /\
  trace w' = trace (run_state w) /\ game_version w' = game_version w /\
  logger w' = logger w /\ vp_refuse w' = vp_refuse w /\
  protection_change_succeeds 0x6071FC w' = protection_change_succeeds 0x6071FC w /\
  (logger w <> None -> log_file w' = log_file w ++ [run_line what w]).
Proof.
  cbv zeta. rewrite Disable_run.
  destruct (write_frame (run_line what w) (run_state w))
    as (Hm & Hp & Ht & Hg & Hl & Hr & _).
  destruct (run_state_frame w) as (Hr' & Hg' & Hl' & Hf' & _ & Hs').
  rewrite Hm, Hp, Ht, Hg, Hl, Hr, Hr', Hg', Hl'.
  repeat split.
  - rewrite <- Hs'. apply succeeds_ext; [now rewrite Hr|exact Hp].
  - intros Hinit. rewrite write_log_file by now rewrite Hl'.
    unfold log_file. now rewrite Hl', Hf'.
Qed.

(** X3: delivering the start notification a second time changes nothing in
    memory or in the page protections: the state after two runs of OnStart
    has the memory and the protections of the state after one.  Only the
    log grows: the second run logs the line of the first once more. *)
Theorem OnStart_again what w :
  let w1 := fst (OnStart what w) in
  let w2 := fst (OnStart what w1) in
  mem w2 = mem w1 /\ pages w2 = pages w1 /\
  (logger w <> None ->
   exists l, log_file w1 = log_file w ++ [l] /\ log_file w2 = log_file w ++ [l; l]).
Proof.
  cbv zeta. rewrite !OnStart_eq. cbn [fst].
  set (w1 := fst (DisableNetworkConstructionAnimationSounds what w)).
  destruct (Disable_fields what w) as (Hm & Hp & _ & Hg & Hl & Hr & Hs & Hlog).
  fold w1 in Hm, Hp, Hg, Hl, Hr, Hs, Hlog.
  destruct (Disable_fields what w1) as (Hm2 & Hp2 & _ & _ & _ & _ & _ & Hlog2).
  destruct (run_state_frame w) as (Hr' & Hg' & _).
  destruct (run_state_ext w1 (run_state w) Hm Hp
              (eq_trans Hr (eq_sym Hr')) (eq_trans Hg (eq_sym Hg')))
    as (Hm3 & Hp3 & _).
  destruct (run_state_again w) as (Hm4 & Hp4).
  split; [congruence|]. split; [congruence|].
  intros Hinit. exists (run_line what w). split; [exact (Hlog Hinit)|].
  rewrite Hlog2 by congruence. rewrite (Hlog Hinit), <- app_assoc.
  now rewrite (run_line_ext what w1 w Hg Hr Hs).
Qed.

Lemma OnStart_again_witness :
  logger game_641 <> None /\
  exists l,
    log_file (fst (OnStart sample_what game_641)) = log_file game_641 ++ [l] /\
    log_file (fst (OnStart sample_what (fst (OnStart sample_what game_641))))
    = log_file game_641 ++ [l; l].
Proof.
  assert (Hl : logger game_641 <> None) by (vm_compute; discriminate).
  split; [exact Hl|].
  exact (proj2 (proj2 (OnStart_again sample_what game_641)) Hl).
Defined.

(** X4: the log tells what the run did.  A run with an initialised logger
    adds exactly one line to the log file, and either that line is the Info
    line "Disabled the network construction animation sounds.", the byte at
    0x6071FC is 0xEB and the run stored exactly that byte; or the line is an
    Error line and the run stored nothing and left the memory and the page
    protections as they were. *)
Theorem log_line_matches_run what w :
  logger w <> None ->
  let w' := fst (DisableNetworkConstructionAnimationSounds what w) in
  exists l, log_file w' = log_file w ++ [l] /\
    (l = Line Info "Disabled the network construction animation sounds." /\
     mem w' !! 0x6071FC = Some 0xEB /\
     stores_of (trace w') = stores_of (trace w) ++ [(0x6071FC, 0xEB)]
     \/
     (exists text, l = Line Error text) /\
     mem w' = mem w /\ pages w' = pages w /\
     stores_of (trace w') = stores_of (trace w)).
Proof.
  intros Hinit. cbv zeta.
  destruct (Disable_fields what w) as (Hm & Hp & Ht & _ & _ & _ & _ & Hlog).
  exists (run_line what w). split; [exact (Hlog Hinit)|].
  rewrite Hm, Hp, Ht. unfold run_line, run_state.
  destruct (to_uint16 (game_version w) =? 641).
  - destruct (protection_change_succeeds 0x6071FC w).
    + left. cbn [patched mem trace]. split; [reflexivity|].
      split; [apply lookup_insert_eq|]. rewrite stores_of_app. reflexivity.
    + right. cbn [refused mem pages trace]. split; [eauto|].
      split; [reflexivity|]. split; [reflexivity|].
      rewrite stores_of_app. cbn. apply app_nil_r.
  - right. split; [eauto|]. repeat split.
Qed.

Lemma log_line_matches_run_witness :
  logger game_641_refused <> None /\
  exists l,
    log_file (fst (DisableNetworkConstructionAnimationSounds sample_what game_641_refused))
    = log_file game_641_refused ++ [l].
Proof.
  assert (Hl : logger game_641_refused <> None) by (vm_compute; discriminate).
  split; [exact Hl|].
  destruct (log_line_matches_run sample_what game_641_refused Hl) as (l & Hlog & _).
  exists l. exact Hlog.
Defined.

(** X5: the patch does not depend on the logging state.  Two processes
    that agree on the memory, the page protections, the system's answer to a
    protection change and the detected version end a run with the same
    memory and the same page protections, whatever their loggers, files,
    module paths and exception texts are. *)
Theorem patch_ignores_logging what1 what2 w1 w2 :
  mem w1 = mem w2 -> pages w1 = pages w2 ->
  vp_refuse w1 = vp_refuse w2 -> game_version w1 = game_version w2 ->
  mem (fst (DisableNetworkConstructionAnimationSounds what1 w1))
  = mem (fst (DisableNetworkConstructionAnimationSounds what2 w2)) /\
  pages (fst (DisableNetworkConstructionAnimationSounds what1 w1))
  = pages (fst (DisableNetworkConstructionAnimationSounds what2 w2)).
Proof.
  intros Hm Hp Hr Hg.
  destruct (Disable_fields what1 w1) as (Hm1 & Hp1 & _).
  destruct (Disable_fields what2 w2) as (Hm2 & Hp2 & _).
  destruct (run_state_ext w1 w2 Hm Hp Hr Hg) as (Hm3 & Hp3 & _).
  split; congruence.
Qed.

Lemma patch_ignores_logging_witness :
  mem (fst (DisableNetworkConstructionAnimationSounds sample_what game_641))
  = mem (fst (DisableNetworkConstructionAnimationSounds (fun _ => "") second_run)).
Proof.
  exact (proj1 (patch_ignores_logging sample_what (fun _ => "") game_641 second_run
                  eq_refl eq_refl eq_refl eq_refl)).
Defined.

(** ** Further properties of the process *)

Lemma write_files l w cfg :
  logger w = Some cfg ->
  files (fst (Logger.write l w)) =
  <[logFilePath cfg := default [] (files w !! logFilePath cfg) ++ [l]]> (files w).
Proof. intros Hl. unfold Logger.write. now rewrite Hl. Qed.

(** The constructor changes the logger and the log file, nothing else. *)
Lemma constructor_fields ver w :
  let w1 := fst (DisableNetworkConstructionSoundsDllDirector ver w) in
  mem w1 = mem w /\ pages w1 = pages w /\ vp_refuse w1 = vp_refuse w /\
  game_version w1 = game_version w /\ module_path w1 = module_path w /\
  trace w1 = trace w /\
  logger w1 = Some (mkLoggerConfig (the_log_file w) Error false) /\
  files w1 =
    <[the_log_file w := [Header ("SC4DisableNetworkConstructionSounds v" +:+ ver)]]>
      (files w).
Proof. cbv zeta. rewrite constructor_eq. repeat split. Qed.

Lemma run_state_mem w :
  mem (run_state w) =
    (if patch_applies w then <[0x6071FC := 0xEB]> (mem w) else mem w) /\
  pages (run_state w) =
    (if patch_applies w
     then <[page_of 0x6071FC := PAGE_EXECUTE_READWRITE]> (pages w) else pages w).
Proof.
  unfold run_state, patch_applies.
  destruct (to_uint16 (game_version w) =? 641); [|auto].
  destruct (protection_change_succeeds 0x6071FC w); auto.
Qed.

Lemma patch_applies_ext w1 w2 :
  pages w1 = pages w2 -> vp_refuse w1 = vp_refuse w2 ->
  game_version w1 = game_version w2 -> patch_applies w1 = patch_applies w2.
Proof.
  intros Hp Hr Hg. unfold patch_applies.
  now rewrite Hg, (succeeds_ext 0x6071FC w1 w2 Hr Hp).
Qed.

(** The state after the constructor and one start notification. *)
Lemma first_run_fields what ver w :
  let w2 := fst (OnStart what
                   (fst (DisableNetworkConstructionSoundsDllDirector ver w))) in
  mem w2 = (if patch_applies w then <[0x6071FC := 0xEB]> (mem w) else mem w) /\
  pages w2 =
    (if patch_applies w
     then <[page_of 0x6071FC := PAGE_EXECUTE_READWRITE]> (pages w) else pages w) /\
  game_version w2 = game_version w /\
  files w2 =
    <[the_log_file w :=
        [Header ("SC4DisableNetworkConstructionSounds v" +:+ ver);
         run_line what w]]> (files w).
Proof.
  cbv zeta. rewrite OnStart_eq. cbn [fst].
  set (w1 := fst (DisableNetworkConstructionSoundsDllDirector ver w)).
  destruct (constructor_fields ver w) as (Hm & Hp & Hr & Hg & _ & _ & Hl & Hf).
  fold w1 in Hm, Hp, Hr, Hg, Hl, Hf.
  destruct (Disable_fields what w1) as (Hm2 & Hp2 & _ & Hg2 & _).
  destruct (run_state_mem w1) as (Hm3 & Hp3).
  rewrite Hm2, Hp2, Hm3, Hp3, Hg2, (patch_applies_ext w1 w Hp Hr Hg), Hm, Hp.
  split; [reflexivity|]. split; [reflexivity|]. split; [exact Hg|].
  rewrite Disable_run.
  destruct (run_state_frame w1) as (_ & _ & Hl3 & Hf3 & _).
  rewrite (write_files _ _ _ (eq_trans Hl3 Hl)). cbn [logFilePath].
  rewrite Hf3, Hf, lookup_insert_eq, insert_insert_eq. cbn [default app].
  now rewrite (run_line_ext what w1 w Hg Hr (succeeds_ext 0x6071FC w1 w Hr Hp)).
Qed.

(** X6: a complete run, the constructor followed by the start notification,
    leaves a log file of exactly two lines whatever the file held before:
    the header with the plugin name and version, then one status line.  The
    file is the one named SC4DisableNetworkConstructionSounds.log beside the
    plugin, and no other file is changed. *)
Theorem first_run_log what ver w :
  let logFile :=
    path_append (parent_path (module_path w))
                "SC4DisableNetworkConstructionSounds.log" in
  let w2 := fst (OnStart what
                   (fst (DisableNetworkConstructionSoundsDllDirector ver w))) in
  (exists l,
     files w2 !! logFile =
     Some [Header ("SC4DisableNetworkConstructionSounds v" +:+ ver); l] /\
     (l = Line Info "Disabled the network construction animation sounds." \/
      exists text, l = Line Error text)) /\
  (forall p : list string, p <> logFile -> files w2 !! p = files w !! p).
Proof.
  cbv zeta. destruct (first_run_fields what ver w) as (_ & _ & _ & Hf).
  rewrite Hf. change (path_append (parent_path (module_path w))
                        "SC4DisableNetworkConstructionSounds.log")
    with (the_log_file w).
  split.
  - exists (run_line what w). split; [apply lookup_insert_eq|].
    unfold run_line. destruct (to_uint16 (game_version w) =? 641); [|eauto].
    destruct (protection_change_succeeds 0x6071FC w); eauto.
  - intros p Hp. now apply lookup_insert_ne.
Qed.

(** The three states of a process. *)
Lemma reachable_worlds what ver w p :
  reachable what ver w p ->
  sDirector p = false /\ started p = false /\ world p = w \/
  sDirector p = true /\ started p = false /\
    world p = fst (DisableNetworkConstructionSoundsDllDirector ver w) \/
  sDirector p = true /\ started p = true /\
    world p = fst (OnStart what
                     (fst (DisableNetworkConstructionSoundsDllDirector ver w))).
Proof.
  induction 1 as [Ht|p p' Hr IH Hstep].
  - left. repeat split.
  - destruct Hstep as [p|p Hd Hs].
    + unfold RZGetCOMDllDirector.
      destruct IH as [(Hd & Hs & Hw)|[(Hd & Hs & Hw)|(Hd & Hs & Hw)]]; rewrite Hd.
      * right. left. cbn [sDirector started world]. now rewrite Hs, Hw.
      * right. left. auto.
      * right. right. auto.
    + destruct IH as [(Hd' & _)|[(_ & _ & Hw)|(_ & Hs' & _)]]; [congruence| |congruence].
      right. right. cbn [sDirector started world]. now rewrite Hw.
Qed.

Lemma started_641_reachable :
  reachable sample_what "1.0.1" second_run started_641.
Proof.
  eapply reachable_step.
  - eapply reachable_step.
    + apply reachable_start. reflexivity.
    + apply host_get_director.
  - apply host_start; reflexivity.
Defined.

Lemma loaded_641_reachable :
  reachable sample_what "1.0.1" second_run loaded_641.
Proof.
  eapply reachable_step.
  - apply reachable_start. reflexivity.
  - apply host_get_director.
Defined.

(** X7: in every state a process can reach, the memory differs from the
    memory it began with at most at address 0x6071FC, the page protections
    differ at most at the page of that address, the files differ at most at
    the log file beside the plugin, and the detected version is the one the
    process began with. *)
Theorem process_footprint what ver w p :
  reachable what ver w p ->
  (forall b, b <> 0x6071FC -> mem (world p) !! b = mem w !! b) /\
  (forall q, q <> page_of 0x6071FC -> pages (world p) !! q = pages w !! q) /\
  (forall f : list string,
     f <> path_append (parent_path (module_path w))
                      "SC4DisableNetworkConstructionSounds.log" ->
     files (world p) !! f = files w !! f) /\
  game_version (world p) = game_version w.
Proof.
  intros Hr.
  destruct (reachable_worlds what ver w p Hr)
    as [(_ & _ & Hw)|[(_ & _ & Hw)|(_ & _ & Hw)]]; rewrite Hw.
  - repeat split.
  - destruct (constructor_fields ver w) as (Hm & Hp & _ & Hg & _ & _ & _ & Hf).
    rewrite Hm, Hp, Hg, Hf. repeat split.
    intros f Hne. now apply lookup_insert_ne.
  - destruct (first_run_fields what ver w) as (Hm & Hp & Hg & Hf).
    rewrite Hm, Hp, Hg, Hf. split; [|split; [|split; [|reflexivity]]].
    + intros b Hb. destruct (patch_applies w); [|reflexivity].
      now apply lookup_insert_ne.
    + intros q Hq. destruct (patch_applies w); [|reflexivity].
      now apply lookup_insert_ne.
    + intros f Hne. now apply lookup_insert_ne.
Qed.

Lemma process_footprint_witness :
  game_version (world started_641) = game_version second_run.
Proof.
  exact (proj2 (proj2 (proj2
    (process_footprint sample_what "1.0.1" second_run started_641
       started_641_reachable)))).
Defined.

(** X8: once the start notification has been delivered, in that state and
    in every later one, the memory is the memory the process began with,
    with 0xEB at 0x6071FC exactly when the detected version is 641 and the
    protection change succeeds in the initial state; in that case the page
    of 0x6071FC is PAGE_EXECUTE_READWRITE, and otherwise the page
    protections are the initial ones. *)
Theorem patch_in_place_after_start what ver w p :
  reachable what ver w p ->
  started p = true ->
  mem (world p) =
    (if (to_uint16 (game_version w) =? 641) && protection_change_succeeds 0x6071FC w
     then <[0x6071FC := 0xEB]> (mem w) else mem w) /\
  pages (world p) =
    (if (to_uint16 (game_version w) =? 641) && protection_change_succeeds 0x6071FC w
     then <[page_of 0x6071FC := PAGE_EXECUTE_READWRITE]> (pages w) else pages w).
Proof.
  intros Hr Hs.
  destruct (reachable_worlds what ver w p Hr)
    as [(_ & Hs' & _)|[(_ & Hs' & _)|(_ & _ & Hw)]]; [congruence|congruence|].
  rewrite Hw. destruct (first_run_fields what ver w) as (Hm & Hp & _).
  split; [exact Hm|exact Hp].
Qed.

Lemma patch_in_place_after_start_witness :
  started started_641 = true /\
  mem (world started_641) =
    (if (to_uint16 (game_version second_run) =? 641)
        && protection_change_succeeds 0x6071FC second_run
     then <[0x6071FC := 0xEB]> (mem second_run) else mem second_run).
Proof.
  split; [reflexivity|].
  exact (proj1 (patch_in_place_after_start sample_what "1.0.1" second_run
                  started_641 started_641_reachable eq_refl)).
Defined.

(** X9: before the start notification nothing is patched.  In every
    reachable state in which OnStart has not run, the memory and the page
    protections are those the process began with and no call of
    OverwriteMemory or store has been recorded; fetching the director,
    however often, only sets up the log, which then holds the header line
    alone. *)
Theorem nothing_patched_before_start what ver w p :
  reachable what ver w p ->
  started p = false ->
  mem (world p) = mem w /\ pages (world p) = pages w /\ trace (world p) = [] /\
  (sDirector p = true ->
   log_file (world p) = [Header ("SC4DisableNetworkConstructionSounds v" +:+ ver)]).
Proof.
  intros Hr Hs.
  assert (Ht : trace w = []).
  { clear Hs. induction Hr as [Ht|]; auto. }
  destruct (reachable_worlds what ver w p Hr)
    as [(Hd & _ & Hw)|[(_ & _ & Hw)|(_ & Hs' & _)]]; [| |congruence].
  - rewrite Hw. repeat split; [exact Ht|congruence].
  - rewrite Hw.
    destruct (constructor_fields ver w) as (Hm & Hp & _ & _ & _ & Htr & Hl & Hf).
    rewrite Hm, Hp, Htr. repeat split; [exact Ht|].
    intros _. unfold log_file. rewrite Hl, Hf. cbn [logFilePath].
    now rewrite lookup_insert_eq.
Qed.

Lemma nothing_patched_before_start_witness :
  started loaded_641 = false /\ mem (world loaded_641) = mem second_run.
Proof.
  split; [reflexivity|].
  exact (proj1 (nothing_patched_before_start sample_what "1.0.1" second_run
                  loaded_641 loaded_641_reachable eq_refl)).
Defined.

(** X10: the director is constructed once.  However often the host calls
    RZGetCOMDllDirector, the process is in the state the first call left:
    the constructor, which empties the log file, does not run again, the
    director exists afterwards, and whether the start notification was
    delivered is not changed. *)
Theorem director_constructed_once ver p n :
  Nat.iter (S n) (RZGetCOMDllDirector ver) p = RZGetCOMDllDirector ver p /\
  sDirector (RZGetCOMDllDirector ver p) = true /\
  started (RZGetCOMDllDirector ver p) = started p /\
  (sDirector p = true -> RZGetCOMDllDirector ver p = p).
Proof.
  assert (Hd : sDirector (RZGetCOMDllDirector ver p) = true).
  { unfold RZGetCOMDllDirector. now destruct (sDirector p) eqn:H. }
  split; [|split; [exact Hd|split]].
  - induction n as [|n IH]; [reflexivity|].
    change (Nat.iter (S (S n)) (RZGetCOMDllDirector ver) p)
      with (RZGetCOMDllDirector ver (Nat.iter (S n) (RZGetCOMDllDirector ver) p)).
    rewrite IH. unfold RZGetCOMDllDirector at 1. now rewrite Hd.
  - unfold RZGetCOMDllDirector. now destruct (sDirector p).
  - intros H. unfold RZGetCOMDllDirector. now rewrite H.
Qed.

Example director_fetched_again_keeps_log :
  log_file (world (RZGetCOMDllDirector "1.0.1" started_641)) =
  [Header "SC4DisableNetworkConstructionSounds v1.0.1";
   Line Info "Disabled the network construction animation sounds."].
Proof. vm_compute. reflexivity. Qed.
